(** * The websocket blueprint (blueprints/websocket.py)

    A shallow embedding of the route layer of [blueprints/websocket.py]:
    the view functions of the [/websocket] blueprint, the helper
    [_get_broker_and_parse_symbols] and the string operations they use.

    Conventions of the embedding.
    - A Python [str] is a [string]: the sequence of its code points, here
      those below 256.
    - [session], [request.args] and the JSON body of a request are
      dictionaries and are modelled as [gmap]s keyed by strings.
    - The functions imported from [services.websocket_service],
      [database.symbol] and [database.auth_db] are the collaborators of
      this file.  They are fields of a record [Services]; a call to one of
      them is recorded in a trace of events, and may raise.
    - A view runs in the monad [M]: it produces the trace of the calls it
      made and either a response or an uncaught exception. *)

From stdpp Require Import base strings list gmap.
From Stdlib Require Import ZArith Ascii String.

Local Open Scope string_scope.
Local Open Scope list_scope.

(** ** Python string operations *)

Module PyStr.

(** [c in s] for a one-character string [c]. *)
Fixpoint contains (c : ascii) (s : string) : bool :=
  match s with
  | EmptyString => false
  | String a s' => if Ascii.eqb a c then true else contains c s'
  end.

(** [s.find(c)], with [None] for Python's -1. *)
Fixpoint find (c : ascii) (s : string) : option nat :=
  match s with
  | EmptyString => None
  | String a s' =>
      if Ascii.eqb a c then Some 0
      else match find c s' with
           | Some i => Some (S i)
           | None => None
           end
  end.

(** [s[:n]] and [s[n:]]. *)
Fixpoint take (n : nat) (s : string) : string :=
  match n, s with
  | S n', String a s' => String a (take n' s')
  | _, _ => EmptyString
  end.

Fixpoint drop (n : nat) (s : string) : string :=
  match n, s with
  | S n', String _ s' => drop n' s'
  | _, _ => s
  end.

(** [s.split(c, 1)]: at most one split, at the leftmost separator. *)
Definition split1 (c : ascii) (s : string) : list string :=
  match find c s with
  | Some i => [take i s; drop (S i) s]
  | None => [s]
  end.

(** [str.isspace] on one code point below 256: the ASCII controls
    9..13 and 28..31, the space, NEL (133) and the no-break space (160). *)
Definition isspace (a : ascii) : bool :=
  let n := nat_of_ascii a in
  (((9 <=? n) && (n <=? 13)) || ((28 <=? n) && (n <=? 31))
   || (n =? 32) || (n =? 133) || (n =? 160))%nat.

Fixpoint lstrip (s : string) : string :=
  match s with
  | EmptyString => EmptyString
  | String a s' => if isspace a then lstrip s' else s
  end.

Fixpoint rstrip (s : string) : string :=
  match s with
  | EmptyString => EmptyString
  | String a s' =>
      match rstrip s' with
      | EmptyString => if isspace a then EmptyString else String a EmptyString
      | r => String a r
      end
  end.

(** [s.strip()]. *)
Definition strip (s : string) : string := rstrip (lstrip s).

(** Every character of [s] is white space. *)
Fixpoint all_space (s : string) : bool :=
  match s with
  | EmptyString => true
  | String a s' => isspace a && all_space s'
  end.

End PyStr.

(** Truth value of [v], the result of a [dict.get] or of a lookup that
    answers a string or [None]: [None] and the empty string are false. *)
Definition truthy (v : option string) : bool :=
  match v with
  | Some s => negb (String.eqb s "")
  | None => false
  end.

(** [if v: th(v) else: el], for such a [v]. *)
Definition if_truthy {A : Type} (v : option string) (th : string → A) (el : A) : A :=
  match v with
  | Some s => if String.eqb s "" then el else th s
  | None => el
  end.

(** ** Values exchanged with the framework and the collaborators *)

(** A value that [jsonify] serialises. *)
#[local] Unset Elimination Schemes.
Inductive Json : Type :=
| JNull
| JBool (b : bool)
| JInt (n : Z)
| JStr (s : string)
| JArr (l : list Json)
| JObj (l : list (string * Json)).
#[local] Set Elimination Schemes.

(** What a view hands back to Flask: a JSON document or a rendered
    template, with the HTTP status. *)
Inductive Body : Type :=
| JsonBody (j : Json)
| TemplateBody (name : string).

Record Response := { body : Body; status : Z }.

(** [jsonify(j)] and [render_template(name)] returned alone: Flask answers
    with its default status, 200. *)
Definition jsonify (j : Json) : Response := {| body := JsonBody j; status := 200 |}.
Definition render_template (name : string) : Response :=
  {| body := TemplateBody name; status := 200 |}.

(** [return r, code]. *)
Definition with_status (r : Response) (code : Z) : Response :=
  {| body := body r; status := code |}.

(** The dictionary [{'error': msg}]. *)
Definition error_json (msg : string) : Json := JObj [("error", JStr msg)].

(** One entry of [parsed_symbols]: the dictionary
    [{'exchange': ..., 'symbol': ...}]. *)
Record ParsedSymbol := { exchange : string; symbol : string }.

(** A row answered by [enhanced_search_symbols]. *)
Record SymbolRecord := {
  rec_symbol : string;
  rec_name : string;
  rec_exchange : string;
  rec_token : string;
  rec_instrumenttype : string
}.

(** An instance of [Exception]; [exc_str] is [str(e)]. *)
Record PyExc := { exc_class : string; exc_str : string }.

(** The closure [on_market_data] of [index]: it emits its argument as
    event [cb_event] to room [cb_room]. *)
Record Callback := { cb_event : string; cb_room : string }.

(** [Flask]'s request as the views read it. *)
Record Request := {
  session : gmap string string;
  args : gmap string string;
  json : gmap string (list string)
}.

(** ** Effects: the trace of calls, and exceptions *)

Inductive Event : Type :=
| RegisterMarketDataCallback (username : string) (cb : Callback)
| EnhancedSearchSymbols (query : string) (exch : option string)
| GetWebsocketSubscriptions (username : string)
| GetWebsocketStatus (username : string)
| GetApiKeyForTradingview (username : string)
| GetBrokerName (api_key : string)
| SubscribeToSymbols (username broker : string) (parsed : list ParsedSymbol)
| UnsubscribeFromSymbols (username broker : string) (parsed : list ParsedSymbol)
| JoinRoom (room : string)
| LoggerInfo (msg : string)
| LoggerError (msg : string).

Definition M (A : Type) : Type := (list Event * (PyExc + A))%type.

Definition ret {A} (a : A) : M A := ([], inr a).
Definition raise {A} (e : PyExc) : M A := ([], inl e).

Definition bind {A B} (m : M A) (k : A → M B) : M B :=
  match m with
  | (t, inl e) => (t, inl e)
  | (t, inr a) => let '(t', r) := k a in (t ++ t', r)
  end.

(** A call to a collaborator: the event, then what the collaborator
    answered or raised. *)
Definition call {A} (ev : Event) (r : PyExc + A) : M A := ([ev], r).

(** A call for its effect only. *)
Definition emit (ev : Event) : M unit := ([ev], inr tt).

(** [try: m except Exception as e: h(e)]. *)
Definition try_except {A} (m : M A) (h : PyExc → M A) : M A :=
  match m with
  | (t, inl e) => let '(t', r) := h e in (t ++ t', r)
  | (t, inr a) => (t, inr a)
  end.

(** The views are written with the monad notation [x ← m; k]. *)
#[global] Instance M_ret : MRet M := @ret.
#[global] Instance M_bind : MBind M := λ A B k m, bind m k.

Definition trace {A} (m : M A) : list Event := fst m.
Definition result {A} (m : M A) : PyExc + A := snd m.

(** ** The symbol-reference parser *)

(** [a, b = l]. *)
Definition unpack2 (l : list string) : M (string * string) :=
  match l with
  | [a; b] => mret (a, b)
  | [] | [_] =>
      raise {| exc_class := "ValueError";
               exc_str := "not enough values to unpack" |}
  | _ => raise {| exc_class := "ValueError";
                  exc_str := "too many values to unpack" |}
  end.

(** The loop of [_get_broker_and_parse_symbols] over [symbols_list];
    [parsed_symbols] is the list built so far. *)
Fixpoint parse_symbols (symbols_list : list string)
    (parsed_symbols : list ParsedSymbol) : M (list ParsedSymbol) :=
  match symbols_list with
  | [] => mret parsed_symbols
  | s :: rest =>
      if PyStr.contains ":" s then
        '(exch, sym) ← unpack2 (PyStr.split1 ":" s);
        parse_symbols rest
          (parsed_symbols ++ [{| exchange := exch; symbol := sym |}])
      else
        parse_symbols rest
          (parsed_symbols ++ [{| exchange := "NSE"; symbol := s |}])
  end.

(** The parser in the words of the spec: an entry with a separator is
    split at its first occurrence, an entry without one gets the default
    exchange. *)
Definition parse_entry (s : string) : ParsedSymbol :=
  match PyStr.find ":" s with
  | Some i => {| exchange := PyStr.take i s; symbol := PyStr.drop (S i) s |}
  | None => {| exchange := "NSE"; symbol := s |}
  end.

(** ** The collaborators *)

(** What the imported functions answer during one request.  Each may
    raise.  The functions of [services.websocket_service] answer a triple
    [(success, payload, status_code)].

    [session_check] stands for the decorator [check_session_validity] of
    [utils.session], whose code is not part of this file: on a session it
    answers [None] when the session is valid, and the view then runs, or
    the response it gives in place of the view. *)
Record Services := {
  session_check : gmap string string → option Response;
  register_market_data_callback : string → Callback → PyExc + unit;
  enhanced_search_symbols : string → option string → PyExc + list SymbolRecord;
  get_websocket_subscriptions : string → PyExc + (bool * Json * Z);
  get_websocket_status : string → PyExc + (bool * Json * Z);
  get_api_key_for_tradingview : string → PyExc + option string;
  get_broker_name : string → PyExc + option string;
  subscribe_to_symbols :
    string → string → list ParsedSymbol → PyExc + (bool * Json * Z);
  unsubscribe_from_symbols :
    string → string → list ParsedSymbol → PyExc + (bool * Json * Z)
}.

Definition View : Type := Services → Request → M Response.

(** Modelled from the spec: the decorator [check_session_validity]
    ([utils.session], not in this file), of which the spec says that
    authentication is delegated to it and that the routes it guards
    require a session.  It lets the view run on a valid session and
    answers itself otherwise. *)
Definition check_session_validity (f : View) : View :=
  λ w req,
    match session_check w (session req) with
    | Some r => mret r
    | None => f w req
    end.

(** ** The helper of subscribe and unsubscribe *)

(** The tuple [(broker, parsed_symbols, None)] is [inr (broker,
    parsed_symbols)] and the tuple [(None, None, error)] is [inl error];
    the callers' test [if error:] is the case distinction on the sum. *)
Definition _get_broker_and_parse_symbols (w : Services) (username : string)
    (symbols_list : list string) : M (string + string * list ParsedSymbol) :=
  api_key ← call (GetApiKeyForTradingview username)
                 (get_api_key_for_tradingview w username);
  if_truthy api_key
    (λ api_key,
       broker ← call (GetBrokerName api_key) (get_broker_name w api_key);
       if_truthy broker
         (λ broker,
            parsed_symbols ← parse_symbols symbols_list [];
            mret (inr (broker, parsed_symbols)))
         (mret (inl "Broker not found")))
    (mret (inl "API Key not found")).

(** ** The view functions *)

Definition on_market_data (username : string) : Callback :=
  {| cb_event := "market_data"; cb_room := "user_" ++ username |}.

Definition record_json (r : SymbolRecord) : Json :=
  JObj [("symbol", JStr (rec_symbol r));
        ("name", JStr (rec_name r));
        ("exchange", JStr (rec_exchange r));
        ("token", JStr (rec_token r));
        ("instrumenttype", JStr (rec_instrumenttype r))].

Definition not_logged_in : Response :=
  with_status (jsonify (error_json "User not logged in")) 401.

Module Views.

Definition index : View := λ w req,
  let username := session req !! "user" in
  _ ← if_truthy username
        (λ username,
           call (RegisterMarketDataCallback username (on_market_data username))
                (register_market_data_callback w username
                   (on_market_data username)))
        (mret tt);
  mret (render_template "websocket.html").

Definition handle_connect (req : Request) : M unit :=
  let username := session req !! "user" in
  if_truthy username
    (λ username,
       _ ← emit (JoinRoom ("user_" ++ username));
       emit (LoggerInfo ("User " ++ username
               ++ " connected to Socket.IO and joined room user_"
               ++ username)))
    (mret tt).

Definition search : View := λ w req,
  let query := PyStr.strip (default "" (args req !! "q")) in
  let exch := args req !! "exchange" in
  if String.eqb query "" then mret (jsonify (JArr []))
  else
    try_except
      (results ← call (EnhancedSearchSymbols query exch)
                      (enhanced_search_symbols w query exch);
       mret (jsonify (JArr (map record_json results))))
      (λ e,
         _ ← emit (LoggerError ("Error searching symbols: " ++ exc_str e));
         mret (with_status (jsonify (error_json (exc_str e))) 500)).

Definition get_subscriptions : View := λ w req,
  let username := session req !! "user" in
  if_truthy username
    (λ username,
       '(success, data, status_code) ←
          call (GetWebsocketSubscriptions username)
               (get_websocket_subscriptions w username);
       if success : bool then mret (jsonify data)
       else mret (with_status (jsonify data) status_code))
    (mret not_logged_in).

Definition subscribe : View := λ w req,
  let username := session req !! "user" in
  if_truthy username
    (λ username,
       let data := json req in
       let symbols := default [] (data !! "symbols") in
       match symbols with
       | [] => mret (with_status (jsonify (error_json "No symbols provided")) 400)
       | _ :: _ =>
           r ← _get_broker_and_parse_symbols w username symbols;
           match r with
           | inl error => mret (with_status (jsonify (error_json error)) 400)
           | inr (broker, parsed_symbols) =>
               '(success, response, status_code) ←
                  call (SubscribeToSymbols username broker parsed_symbols)
                       (subscribe_to_symbols w username broker parsed_symbols);
               mret (with_status (jsonify response) status_code)
           end
       end)
    (mret not_logged_in).

Definition unsubscribe : View := λ w req,
  let username := session req !! "user" in
  if_truthy username
    (λ username,
       let data := json req in
       let symbols := default [] (data !! "symbols") in
       match symbols with
       | [] => mret (with_status (jsonify (error_json "No symbols provided")) 400)
       | _ :: _ =>
           r ← _get_broker_and_parse_symbols w username symbols;
           match r with
           | inl error => mret (with_status (jsonify (error_json error)) 400)
           | inr (broker, parsed_symbols) =>
               '(success, response, status_code) ←
                  call (UnsubscribeFromSymbols username broker parsed_symbols)
                       (unsubscribe_from_symbols w username broker parsed_symbols);
               mret (with_status (jsonify response) status_code)
           end
       end)
    (mret not_logged_in).

Definition status : View := λ w req,
  let username := session req !! "user" in
  if_truthy username
    (λ username,
       '(success, data, status_code) ←
          call (GetWebsocketStatus username) (get_websocket_status w username);
       mret (with_status (jsonify data) status_code))
    (mret not_logged_in).

End Views.

(** ** The routes: the views under [@check_session_validity] *)

Module Routes.

Definition index : View := check_session_validity Views.index.
Definition search : View := check_session_validity Views.search.
Definition get_subscriptions : View :=
  check_session_validity Views.get_subscriptions.
Definition subscribe : View := check_session_validity Views.subscribe.
Definition unsubscribe : View := check_session_validity Views.unsubscribe.
Definition status : View := check_session_validity Views.status.

End Routes.

(** ** Outcomes named in the statements *)

(** The outcome of a view that answered [code] with the body
    [{'error': msg}] after the calls [t]. *)
Definition error_outcome (t : list Event) (msg : string) (code : Z) : M Response :=
  (t, inr {| body := JsonBody (JObj [("error", JStr msg)]); status := code |}).

(** The 400 of subscribe and unsubscribe on a missing or empty list, with
    no call made. *)
Definition no_symbols_provided : M Response :=
  error_outcome [] "No symbols provided" 400.

(** ** Symbol references as a client writes them *)

(** The reference [EXCHANGE:SYMBOL] of an entry. *)
Definition render_symbol (p : ParsedSymbol) : string :=
  (exchange p ++ ":" ++ symbol p)%string.

(** A reference with its exchange made explicit: a bare symbol gets the
    prefix [NSE:]. *)
Definition qualify (s : string) : string :=
  if PyStr.contains ":" s then s else ("NSE:" ++ s)%string.

(** The same call, of the other of the two subscription functions. *)
Definition opposite (ev : Event) : Event :=
  match ev with
  | SubscribeToSymbols u b p => UnsubscribeFromSymbols u b p
  | UnsubscribeFromSymbols u b p => SubscribeToSymbols u b p
  | _ => ev
  end.

(** ** Sample collaborators and requests

    Used to run the views on concrete inputs. *)

Definition sample_payload : Json :=
  JObj [("status", JStr "error"); ("message", JStr "WebSocket not connected")].

Definition sample_record : SymbolRecord :=
  {| rec_symbol := "INFY"; rec_name := "INFOSYS"; rec_exchange := "NSE";
     rec_token := "1594"; rec_instrumenttype := "EQ" |}.

(** Collaborators whose session check passes every session, whose lookups
    answer [api_key] and [broker], whose search raises on the query
    ["FAIL"], and whose subscription service reports a failure. *)
Definition sample_services (api_key broker : option string) : Services :=
  {| session_check := λ _, None;
     register_market_data_callback := λ _ _, inr tt;
     enhanced_search_symbols := λ query _,
       if String.eqb query "FAIL"
       then inl {| exc_class := "OperationalError";
                   exc_str := "database is locked" |}
       else inr [sample_record];
     get_websocket_subscriptions := λ _, inr (false, sample_payload, 503%Z);
     get_websocket_status := λ _, inr (true, JObj [("connected", JBool true)], 200%Z);
     get_api_key_for_tradingview := λ _, inr api_key;
     get_broker_name := λ _, inr broker;
     subscribe_to_symbols := λ _ _ _, inr (false, sample_payload, 503%Z);
     unsubscribe_from_symbols := λ _ _ _, inr (false, sample_payload, 503%Z) |}.

(** The same, with a subscription service that reports a success. *)
Definition sample_services_ok : Services :=
  {| session_check := λ _, None;
     register_market_data_callback := λ _ _, inr tt;
     enhanced_search_symbols := λ _ _, inr [sample_record];
     get_websocket_subscriptions := λ _, inr (true, JArr [JStr "NSE:INFY"], 200%Z);
     get_websocket_status := λ _, inr (true, JObj [("connected", JBool true)], 200%Z);
     get_api_key_for_tradingview := λ _, inr (Some "key-1");
     get_broker_name := λ _, inr (Some "zerodha");
     subscribe_to_symbols := λ _ _ _, inr (true, JObj [("status", JStr "success")], 200%Z);
     unsubscribe_from_symbols := λ _ _ _, inr (true, JObj [("status", JStr "success")], 200%Z) |}.

(** Collaborators whose lookups answer, and whose subscription service
    is out of reach: its two functions raise. *)
Definition sample_services_down : Services :=
  {| session_check := λ _, None;
     register_market_data_callback := λ _ _, inr tt;
     enhanced_search_symbols := λ _ _, inr [sample_record];
     get_websocket_subscriptions := λ _, inr (false, sample_payload, 503%Z);
     get_websocket_status := λ _, inr (false, sample_payload, 503%Z);
     get_api_key_for_tradingview := λ _, inr (Some "key-1");
     get_broker_name := λ _, inr (Some "zerodha");
     subscribe_to_symbols := λ _ _ _,
       inl {| exc_class := "ConnectionError"; exc_str := "proxy unreachable" |};
     unsubscribe_from_symbols := λ _ _ _,
       inl {| exc_class := "ConnectionError"; exc_str := "proxy unreachable" |} |}.

(** A request with the given session user, query parameter [q] and
    [symbols] entry of the JSON body, each possibly absent. *)
Definition sample_request (user q : option string)
    (symbols : option (list string)) : Request :=
  {| session := match user with Some u => {[ "user" := u ]} | None => ∅ end;
     args := match q with Some v => {[ "q" := v ]} | None => ∅ end;
     json := match symbols with Some l => {[ "symbols" := l ]} | None => ∅ end |}.

(** * Properties *)

(** ** Strings *)

Section StringFacts.

Variable c : ascii.

Lemma find_contains (s : string) :
  PyStr.contains c s = true ↔ is_Some (PyStr.find c s).
Proof.
  induction s as [|a s IH]; simpl.
  - split; [discriminate | intros [i Hi]; discriminate].
  - destruct (Ascii.eqb a c).
    + split; eauto.
    + rewrite IH. destruct (PyStr.find c s); split; intros [i Hi];
        eauto; discriminate.
Qed.

Lemma find_None_contains (s : string) :
  PyStr.find c s = None → PyStr.contains c s = false.
Proof.
  intros Hf. destruct (PyStr.contains c s) eqn:Hc; [|reflexivity].
  apply find_contains in Hc. rewrite Hf in Hc. by destruct Hc.
Qed.

(** The index answered by [find] is that of the leftmost [c]: [s] is the
    part before it, then [c], then the part after it, and the part before
    has no [c]. *)
Lemma find_Some_split (s : string) (i : nat) :
  PyStr.find c s = Some i →
  s = (PyStr.take i s ++ String c (PyStr.drop (S i) s))%string
  ∧ PyStr.contains c (PyStr.take i s) = false.
Proof.
  revert i. induction s as [|a s IH]; intros i; simpl; [discriminate|].
  destruct (Ascii.eqb a c) eqn:Hac.
  - intros [= <-]. apply Ascii.eqb_eq in Hac. subst a. by simpl.
  - destruct (PyStr.find c s) as [j|] eqn:Hj; [|discriminate].
    intros [= <-]. destruct (IH j eq_refl) as [Hs Hn].
    split; [|simpl; rewrite Hac; exact Hn].
    change (String a s
            = String a (PyStr.take j s ++ String c (PyStr.drop (S j) s))%string).
    by f_equal.
Qed.

End StringFacts.

Lemma lstrip_all_space (s : string) :
  PyStr.all_space s = true → PyStr.lstrip s = "".
Proof.
  induction s as [|a s IH]; simpl; [reflexivity|].
  intros [Ha Hs]%andb_prop. rewrite Ha. by apply IH.
Qed.

Lemma strip_all_space (s : string) :
  PyStr.all_space s = true → PyStr.strip s = "".
Proof. intros H. unfold PyStr.strip. by rewrite lstrip_all_space. Qed.

(** [strip] answers the empty string on white space only. *)
Lemma rstrip_empty (s : string) :
  PyStr.rstrip s = "" → PyStr.all_space s = true.
Proof.
  induction s as [|a s IH]; simpl; [reflexivity|].
  destruct (PyStr.rstrip s) eqn:Hr; [|discriminate].
  destruct (PyStr.isspace a); [|discriminate]. intros _. by apply IH.
Qed.

Lemma lstrip_keeps_all_space (s : string) :
  PyStr.all_space (PyStr.lstrip s) = true → PyStr.all_space s = true.
Proof.
  induction s as [|a s IH]; simpl; [reflexivity|].
  destruct (PyStr.isspace a) eqn:Ha; simpl; [exact IH|].
  rewrite Ha. discriminate.
Qed.

Lemma strip_empty_iff (s : string) :
  PyStr.strip s = "" ↔ PyStr.all_space s = true.
Proof.
  split; [|apply strip_all_space].
  intros H. apply lstrip_keeps_all_space, rstrip_empty, H.
Qed.

(** The string operations on the inputs of the Python documentation and
    of the routes. *)
Example split1_examples :
  PyStr.split1 ":" "NSE:INFY" = ["NSE"; "INFY"]
  ∧ PyStr.split1 ":" "NFO:NIFTY:FUT" = ["NFO"; "NIFTY:FUT"]
  ∧ PyStr.split1 ":" ":INFY" = [""; "INFY"]
  ∧ PyStr.split1 ":" "NSE:" = ["NSE"; ""]
  ∧ PyStr.split1 ":" "TCS" = ["TCS"].
Proof. repeat split. Qed.

Example strip_examples :
  PyStr.strip "  INFY " = "INFY"
  ∧ PyStr.strip "TATA MOTORS" = "TATA MOTORS"
  ∧ PyStr.strip " a  b  " = "a  b"
  ∧ PyStr.strip "   " = ""
  ∧ PyStr.strip "" = "".
Proof. repeat split. Qed.

(** ** The monad *)

Lemma bind_ret {A B} (a : A) (k : A → M B) : (mret a ≫= k) = k a.
Proof. unfold mbind, M_bind, mret, M_ret, bind, ret. by destruct (k a). Qed.

Lemma bind_call {A B} (ev : Event) (a : A) (k : A → M B) :
  (call ev (inr a) ≫= k) = (ev :: trace (k a), result (k a)).
Proof. unfold mbind, M_bind, bind, call, trace, result. by destruct (k a). Qed.

Lemma bind_call_raise {A B} (ev : Event) (e : PyExc) (k : A → M B) :
  (call ev (inl e) ≫= k) = ([ev], inl e).
Proof. reflexivity. Qed.

(** ** The parser *)

(** The loop never raises: the unpacking always finds two parts. *)
Lemma parse_symbols_map (l : list string) (acc : list ParsedSymbol) :
  parse_symbols l acc = mret (acc ++ map parse_entry l).
Proof.
  revert acc. induction l as [|s l IH]; intros acc; simpl.
  - by rewrite app_nil_r.
  - unfold parse_entry at 1. unfold PyStr.split1.
    destruct (PyStr.contains ":" s) eqn:Hc.
    + apply find_contains in Hc as [i Hi]. rewrite Hi.
      unfold unpack2. rewrite bind_ret, IH. by rewrite <- app_assoc.
    + destruct (PyStr.find ":" s) as [i|] eqn:Hi.
      * assert (PyStr.contains ":" s = true) as Hc'
          by (apply find_contains; eauto). congruence.
      * rewrite IH. by rewrite <- app_assoc.
Qed.

Lemma parse_entry_spec (s : string) :
  if PyStr.contains ":" s
  then s = (exchange (parse_entry s) ++ ":" ++ symbol (parse_entry s))%string
       ∧ PyStr.contains ":" (exchange (parse_entry s)) = false
  else parse_entry s = {| exchange := "NSE"; symbol := s |}.
Proof.
  unfold parse_entry. destruct (PyStr.contains ":" s) eqn:Hc.
  - apply find_contains in Hc as [i Hi]. rewrite Hi. simpl.
    by apply find_Some_split.
  - destruct (PyStr.find ":" s) as [i|] eqn:Hi; [|reflexivity].
    assert (PyStr.contains ":" s = true) as Hc'
      by (apply find_contains; eauto). congruence.
Qed.

(** C1.  On every list of symbol strings the parser returns, without
    raising and without calling anything, a list of (exchange, symbol)
    entries of the length of its input; the entry at each position comes
    from the input at that position: when that string contains ':' it is
    the exchange, then the first ':' (the exchange contains none), then the
    symbol, and otherwise the entry is ('NSE', string).  On
    ["NSE:INFY", "TCS"] the parser answers
    [{exchange: "NSE", symbol: "INFY"}, {exchange: "NSE", symbol: "TCS"}]. *)
Theorem parse_symbols_correct :
  (∀ symbols_list : list string,
     ∃ parsed : list ParsedSymbol,
       parse_symbols symbols_list [] = ([], inr parsed)
       ∧ List.length parsed = List.length symbols_list
       ∧ ∀ (i : nat) (s : string),
           symbols_list !! i = Some s →
           ∃ p, parsed !! i = Some p
                ∧ if PyStr.contains ":" s
                  then s = (exchange p ++ ":" ++ symbol p)%string
                       ∧ PyStr.contains ":" (exchange p) = false
                  else p = {| exchange := "NSE"; symbol := s |})
  ∧ parse_symbols ["NSE:INFY"; "TCS"] []
    = ([], inr [{| exchange := "NSE"; symbol := "INFY" |};
                {| exchange := "NSE"; symbol := "TCS" |}]).
Proof.
  split; [|reflexivity].
  intros l. exists (map parse_entry l). split; [|split].
  - by rewrite parse_symbols_map.
  - by rewrite length_map.
  - intros i s Hi. exists (parse_entry s). split.
    + by rewrite list_lookup_fmap, Hi.
    + apply parse_entry_spec.
Qed.

(** ** The views and the routes *)

Lemma if_truthy_Some {A} (s : string) (th : string → A) (el : A) :
  s ≠ "" → if_truthy (Some s) th el = th s.
Proof.
  intros Hs. unfold if_truthy. destruct (String.eqb s "") eqn:E; [|reflexivity].
  by apply String.eqb_eq in E.
Qed.

Lemma if_truthy_falsy {A} (v : option string) (th : string → A) (el : A) :
  truthy v = false → if_truthy v th el = el.
Proof.
  unfold truthy, if_truthy. destruct v as [s|]; [|reflexivity].
  by destruct (String.eqb s "").
Qed.

(** On a valid session the route is its view. *)
Lemma route_on_valid_session (f : View) (w : Services) (req : Request) :
  session_check w (session req) = None → check_session_validity f w req = f w req.
Proof. intros H. unfold check_session_validity. by rewrite H. Qed.

(** What the helper answers, by the outcome of the two lookups. *)
Lemma helper_no_api_key (w : Services) (username : string) (l : list string) :
  get_api_key_for_tradingview w username = inr None →
  _get_broker_and_parse_symbols w username l
  = ([GetApiKeyForTradingview username], inr (inl "API Key not found")).
Proof.
  intros H. unfold _get_broker_and_parse_symbols. by rewrite H, bind_call.
Qed.

Lemma helper_no_broker (w : Services) (username api_key : string) (l : list string) :
  get_api_key_for_tradingview w username = inr (Some api_key) → api_key ≠ "" →
  get_broker_name w api_key = inr None →
  _get_broker_and_parse_symbols w username l
  = ([GetApiKeyForTradingview username; GetBrokerName api_key],
     inr (inl "Broker not found")).
Proof.
  intros Hk Hne Hb. unfold _get_broker_and_parse_symbols.
  rewrite Hk, bind_call, if_truthy_Some by done. by rewrite Hb, bind_call.
Qed.

Lemma helper_resolved (w : Services) (username api_key broker : string)
    (l : list string) :
  get_api_key_for_tradingview w username = inr (Some api_key) → api_key ≠ "" →
  get_broker_name w api_key = inr (Some broker) → broker ≠ "" →
  _get_broker_and_parse_symbols w username l
  = ([GetApiKeyForTradingview username; GetBrokerName api_key],
     inr (inr (broker, map parse_entry l))).
Proof.
  intros Hk Hne Hb Hnb. unfold _get_broker_and_parse_symbols.
  rewrite Hk, bind_call, if_truthy_Some by done.
  rewrite Hb, bind_call, if_truthy_Some by done.
  by rewrite parse_symbols_map, bind_ret.
Qed.

Lemma bind_inr {A B} (t : list Event) (a : A) (k : A → M B) :
  (((t, inr a) : M A) ≫= k) = (t ++ trace (k a), result (k a)).
Proof. unfold mbind, M_bind, bind, trace, result. by destruct (k a). Qed.

(** The two views after a non-empty symbol list was read, by the answer
    of the helper. *)
Lemma subscribe_view_resolved (w : Services) (req : Request)
    (username api_key broker : string) (symbols : list string)
    (success : bool) (payload : Json) (code : Z) :
  session req !! "user" = Some username → username ≠ "" →
  json req !! "symbols" = Some symbols → symbols ≠ [] →
  get_api_key_for_tradingview w username = inr (Some api_key) → api_key ≠ "" →
  get_broker_name w api_key = inr (Some broker) → broker ≠ "" →
  subscribe_to_symbols w username broker (map parse_entry symbols)
    = inr (success, payload, code) →
  Views.subscribe w req
  = ([GetApiKeyForTradingview username; GetBrokerName api_key;
      SubscribeToSymbols username broker (map parse_entry symbols)],
     inr {| body := JsonBody payload; status := code |}).
Proof.
  intros Hu Hne Hs Hnil Hk Hnk Hb Hnb Hc. unfold Views.subscribe.
  rewrite Hu, if_truthy_Some, Hs by done. simpl default.
  destruct symbols as [|s l]; [done|].
  rewrite (helper_resolved w username api_key broker) by done.
  rewrite bind_inr. rewrite Hc, bind_call. reflexivity.
Qed.

Lemma unsubscribe_view_resolved (w : Services) (req : Request)
    (username api_key broker : string) (symbols : list string)
    (success : bool) (payload : Json) (code : Z) :
  session req !! "user" = Some username → username ≠ "" →
  json req !! "symbols" = Some symbols → symbols ≠ [] →
  get_api_key_for_tradingview w username = inr (Some api_key) → api_key ≠ "" →
  get_broker_name w api_key = inr (Some broker) → broker ≠ "" →
  unsubscribe_from_symbols w username broker (map parse_entry symbols)
    = inr (success, payload, code) →
  Views.unsubscribe w req
  = ([GetApiKeyForTradingview username; GetBrokerName api_key;
      UnsubscribeFromSymbols username broker (map parse_entry symbols)],
     inr {| body := JsonBody payload; status := code |}).
Proof.
  intros Hu Hne Hs Hnil Hk Hnk Hb Hnb Hc. unfold Views.unsubscribe.
  rewrite Hu, if_truthy_Some, Hs by done. simpl default.
  destruct symbols as [|s l]; [done|].
  rewrite (helper_resolved w username api_key broker) by done.
  rewrite bind_inr. rewrite Hc, bind_call. reflexivity.
Qed.

(** C2.  For a logged-in user, a non-empty symbol list and lookups that
    answer an API key and a broker, the parser returns a list [parsed], and
    whatever triple (success, payload, status code) the collaborator
    [subscribe_to_symbols] (for /websocket/unsubscribe:
    [unsubscribe_from_symbols]) answers on the user, the broker and
    [parsed], the response of the route has that payload as its body and
    that status code as its status, whatever the success flag; the calls
    made are the two lookups and that one call. *)
Theorem subscribe_mirrors_collaborator (w : Services) (req : Request)
    (username api_key broker : string) (symbols : list string) :
  session_check w (session req) = None →
  session req !! "user" = Some username → username ≠ "" →
  json req !! "symbols" = Some symbols → symbols ≠ [] →
  get_api_key_for_tradingview w username = inr (Some api_key) → api_key ≠ "" →
  get_broker_name w api_key = inr (Some broker) → broker ≠ "" →
  ∃ parsed : list ParsedSymbol,
    parse_symbols symbols [] = ([], inr parsed)
    ∧ (∀ (success : bool) (payload : Json) (code : Z),
         subscribe_to_symbols w username broker parsed
           = inr (success, payload, code) →
         Routes.subscribe w req
         = ([GetApiKeyForTradingview username; GetBrokerName api_key;
             SubscribeToSymbols username broker parsed],
            inr {| body := JsonBody payload; status := code |}))
    ∧ (∀ (success : bool) (payload : Json) (code : Z),
         unsubscribe_from_symbols w username broker parsed
           = inr (success, payload, code) →
         Routes.unsubscribe w req
         = ([GetApiKeyForTradingview username; GetBrokerName api_key;
             UnsubscribeFromSymbols username broker parsed],
            inr {| body := JsonBody payload; status := code |})).
Proof.
  intros Hg Hu Hne Hs Hnil Hk Hnk Hb Hnb.
  exists (map parse_entry symbols). split; [|split].
  - by rewrite parse_symbols_map.
  - intros success payload code Hc. unfold Routes.subscribe.
    rewrite route_on_valid_session by done.
    by apply (subscribe_view_resolved w req username api_key broker symbols success).
  - intros success payload code Hc. unfold Routes.unsubscribe.
    rewrite route_on_valid_session by done.
    by apply (unsubscribe_view_resolved w req username api_key broker symbols success).
Qed.

Lemma subscribe_mirrors_collaborator_witness :
  Routes.subscribe (sample_services (Some "key-1") (Some "zerodha"))
    (sample_request (Some "alice") None (Some ["NSE:INFY"; "TCS"]))
  = ([GetApiKeyForTradingview "alice"; GetBrokerName "key-1";
      SubscribeToSymbols "alice" "zerodha"
        [{| exchange := "NSE"; symbol := "INFY" |};
         {| exchange := "NSE"; symbol := "TCS" |}]],
     inr {| body := JsonBody sample_payload; status := 503 |})
  ∧ Routes.unsubscribe sample_services_ok
      (sample_request (Some "alice") None (Some ["BSE:SBIN"]))
    = ([GetApiKeyForTradingview "alice"; GetBrokerName "key-1";
        UnsubscribeFromSymbols "alice" "zerodha"
          [{| exchange := "BSE"; symbol := "SBIN" |}]],
       inr {| body := JsonBody (JObj [("status", JStr "success")]);
              status := 200 |}).
Proof.
  split.
  - destruct (subscribe_mirrors_collaborator
                (sample_services (Some "key-1") (Some "zerodha"))
                (sample_request (Some "alice") None (Some ["NSE:INFY"; "TCS"]))
                "alice" "key-1" "zerodha" ["NSE:INFY"; "TCS"])
      as (parsed & Hp & Hsub & _);
      [reflexivity | reflexivity | discriminate | reflexivity | discriminate
      | reflexivity | discriminate | reflexivity | discriminate |].
    vm_compute in Hp. injection Hp as <-.
    exact (Hsub false sample_payload 503%Z eq_refl).
  - destruct (subscribe_mirrors_collaborator sample_services_ok
                (sample_request (Some "alice") None (Some ["BSE:SBIN"]))
                "alice" "key-1" "zerodha" ["BSE:SBIN"])
      as (parsed & Hp & _ & Hunsub);
      [reflexivity | reflexivity | discriminate | reflexivity | discriminate
      | reflexivity | discriminate | reflexivity | discriminate |].
    vm_compute in Hp. injection Hp as <-.
    exact (Hunsub true (JObj [("status", JStr "success")]) 200%Z eq_refl).
Defined.

(** ** Requests without a session user *)

(** C3, as the code has it.  On a request that the session check lets
    through and whose session has no user (none, or an empty one), the
    routes /websocket/subscriptions, /websocket/status, /websocket/subscribe
    and /websocket/unsubscribe answer 401 with the body
    {error: 'User not logged in'} and call no collaborator; the route
    /websocket/ calls no collaborator either, registers no callback, and
    answers the rendered page with status 200; the route /websocket/search
    does not read the session user: its outcome is the same under any
    other session that the check lets through. *)
Theorem no_session_user (w : Services) (req : Request) :
  session_check w (session req) = None →
  truthy (session req !! "user") = false →
  Routes.get_subscriptions w req
    = ([], inr {| body := JsonBody (error_json "User not logged in");
                  status := 401 |})
  ∧ Routes.status w req
    = ([], inr {| body := JsonBody (error_json "User not logged in");
                  status := 401 |})
  ∧ Routes.subscribe w req
    = ([], inr {| body := JsonBody (error_json "User not logged in");
                  status := 401 |})
  ∧ Routes.unsubscribe w req
    = ([], inr {| body := JsonBody (error_json "User not logged in");
                  status := 401 |})
  ∧ Routes.index w req
    = ([], inr {| body := TemplateBody "websocket.html"; status := 200 |})
  ∧ ∀ other : gmap string string,
      session_check w other = None →
      Routes.search w {| session := other; args := args req; json := json req |}
      = Routes.search w req.
Proof.
  intros Hg Hu.
  unfold Routes.get_subscriptions, Routes.status, Routes.subscribe,
    Routes.unsubscribe, Routes.index, Routes.search.
  rewrite !route_on_valid_session by done.
  unfold Views.get_subscriptions, Views.status, Views.subscribe,
    Views.unsubscribe, Views.index.
  rewrite !if_truthy_falsy by done.
  repeat split.
  intros other Ho. by rewrite route_on_valid_session.
Qed.

Lemma no_session_user_witness :
  Routes.status (sample_services (Some "key-1") (Some "zerodha"))
    (sample_request None None (Some ["TCS"]))
  = ([], inr {| body := JsonBody (error_json "User not logged in");
                status := 401 |}).
Proof.
  apply (no_session_user (sample_services (Some "key-1") (Some "zerodha"))
           (sample_request None None (Some ["TCS"]))); reflexivity.
Defined.

(** C3 fails as stated.  The request of the counterexample has no session user and asks for
    the query INFY: the view [index] answers the page with status 200, not
    401, and the view [search] calls [enhanced_search_symbols] and answers
    its rows with status 200; so do the routes when the session check lets
    the request through. *)
Lemma no_session_user_counterexample :
  session (sample_request None (Some "INFY") None) !! "user" = None
  ∧ Views.index sample_services_ok (sample_request None (Some "INFY") None)
    = ([], inr {| body := TemplateBody "websocket.html"; status := 200 |})
  ∧ Views.search sample_services_ok (sample_request None (Some "INFY") None)
    = ([EnhancedSearchSymbols "INFY" None],
       inr {| body := JsonBody (JArr [record_json sample_record]);
              status := 200 |})
  ∧ Routes.index sample_services_ok (sample_request None (Some "INFY") None)
    = ([], inr {| body := TemplateBody "websocket.html"; status := 200 |})
  ∧ Routes.search sample_services_ok (sample_request None (Some "INFY") None)
    = ([EnhancedSearchSymbols "INFY" None],
       inr {| body := JsonBody (JArr [record_json sample_record]);
              status := 200 |}).
Proof. repeat split; vm_compute; reflexivity. Qed.

(** ** Subscribe and unsubscribe: the local checks *)

(** C4.  For a logged-in user, a POST to /websocket/subscribe or to
    /websocket/unsubscribe whose symbols list is empty answers 400 with the
    body {error: 'No symbols provided'}, and the trace of calls is empty:
    the helper, whose first step is the API-key lookup, did not run, and
    no lookup and no subscribe or unsubscribe call was made. *)
Theorem empty_symbols_400 (w : Services) (req : Request) (username : string) :
  session_check w (session req) = None →
  session req !! "user" = Some username → username ≠ "" →
  json req !! "symbols" = Some [] →
  Routes.subscribe w req = no_symbols_provided
  ∧ Routes.unsubscribe w req = no_symbols_provided.
Proof.
  intros Hg Hu Hne Hs. unfold Routes.subscribe, Routes.unsubscribe.
  rewrite !route_on_valid_session by done.
  unfold Views.subscribe, Views.unsubscribe.
  rewrite Hu, !if_truthy_Some, Hs by done. by split.
Qed.

Lemma empty_symbols_400_witness :
  Routes.subscribe (sample_services (Some "key-1") (Some "zerodha"))
    (sample_request (Some "alice") None (Some []))
  = no_symbols_provided.
Proof.
  apply (empty_symbols_400 (sample_services (Some "key-1") (Some "zerodha"))
           (sample_request (Some "alice") None (Some [])) "alice");
    [reflexivity | reflexivity | discriminate | reflexivity].
Defined.

(** C10.  For a logged-in user, a POST to /websocket/subscribe or to
    /websocket/unsubscribe whose JSON body has no 'symbols' key answers as
    for an empty list: 400 with the body {error: 'No symbols provided'},
    and no lookup and no collaborator call is made. *)
Theorem missing_symbols_400 (w : Services) (req : Request) (username : string) :
  session_check w (session req) = None →
  session req !! "user" = Some username → username ≠ "" →
  json req !! "symbols" = None →
  Routes.subscribe w req = no_symbols_provided
  ∧ Routes.unsubscribe w req = no_symbols_provided.
Proof.
  intros Hg Hu Hne Hs. unfold Routes.subscribe, Routes.unsubscribe.
  rewrite !route_on_valid_session by done.
  unfold Views.subscribe, Views.unsubscribe.
  rewrite Hu, !if_truthy_Some, Hs by done. by split.
Qed.

Lemma missing_symbols_400_witness :
  Routes.unsubscribe (sample_services (Some "key-1") (Some "zerodha"))
    (sample_request (Some "alice") None None)
  = no_symbols_provided.
Proof.
  apply (missing_symbols_400 (sample_services (Some "key-1") (Some "zerodha"))
           (sample_request (Some "alice") None None) "alice");
    [reflexivity | reflexivity | discriminate | reflexivity].
Defined.

(** The two views after a non-empty symbol list was read, when the
    helper answers an error. *)
Lemma subscribe_views_helper_error (w : Services) (req : Request)
    (username : string) (symbols : list string) (t : list Event) (msg : string) :
  session req !! "user" = Some username → username ≠ "" →
  json req !! "symbols" = Some symbols → symbols ≠ [] →
  _get_broker_and_parse_symbols w username symbols = (t, inr (inl msg)) →
  Views.subscribe w req = error_outcome t msg 400
  ∧ Views.unsubscribe w req = error_outcome t msg 400.
Proof.
  intros Hu Hne Hs Hnil Hh. unfold Views.subscribe, Views.unsubscribe.
  rewrite Hu, !if_truthy_Some, Hs by done. simpl default.
  destruct symbols as [|s l]; [done|].
  rewrite Hh, !bind_inr. unfold error_outcome. simpl. by rewrite app_nil_r.
Qed.

(** C5.  For a logged-in user and a non-empty symbols list:
    when [get_api_key_for_tradingview] answers null, /websocket/subscribe
    and /websocket/unsubscribe answer 400 with {error: 'API Key not
    found'} after that lookup alone; when it answers a key for which
    [get_broker_name] answers null, they answer 400 with {error: 'Broker
    not found'} after the two lookups alone; an empty key counts as no
    key.  In no case is [subscribe_to_symbols] or
    [unsubscribe_from_symbols] called. *)
Theorem resolution_failure_400 (w : Services) (req : Request)
    (username : string) (symbols : list string) :
  session_check w (session req) = None →
  session req !! "user" = Some username → username ≠ "" →
  json req !! "symbols" = Some symbols → symbols ≠ [] →
  (get_api_key_for_tradingview w username = inr None →
     Routes.subscribe w req
       = error_outcome [GetApiKeyForTradingview username] "API Key not found" 400
     ∧ Routes.unsubscribe w req
       = error_outcome [GetApiKeyForTradingview username] "API Key not found" 400)
  ∧ (∀ api_key : string,
       get_api_key_for_tradingview w username = inr (Some api_key) →
       api_key ≠ "" →
       get_broker_name w api_key = inr None →
       Routes.subscribe w req
         = error_outcome [GetApiKeyForTradingview username; GetBrokerName api_key]
             "Broker not found" 400
       ∧ Routes.unsubscribe w req
         = error_outcome [GetApiKeyForTradingview username; GetBrokerName api_key]
             "Broker not found" 400)
  ∧ (get_api_key_for_tradingview w username = inr (Some "") →
     Routes.subscribe w req
       = error_outcome [GetApiKeyForTradingview username] "API Key not found" 400
     ∧ Routes.unsubscribe w req
       = error_outcome [GetApiKeyForTradingview username] "API Key not found" 400).
Proof.
  intros Hg Hu Hne Hs Hnil. unfold Routes.subscribe, Routes.unsubscribe.
  rewrite !route_on_valid_session by done. split; [|split].
  - intros Hk. apply (subscribe_views_helper_error w req username symbols); try done.
    by apply helper_no_api_key.
  - intros api_key Hk Hnk Hb. apply (subscribe_views_helper_error w req username symbols); try done.
    by apply helper_no_broker.
  - intros Hk. apply (subscribe_views_helper_error w req username symbols); try done.
    unfold _get_broker_and_parse_symbols. by rewrite Hk, bind_call.
Qed.

Lemma resolution_failure_400_witness :
  Routes.subscribe (sample_services None (Some "zerodha"))
    (sample_request (Some "alice") None (Some ["NSE:INFY"; "TCS"]))
  = error_outcome [GetApiKeyForTradingview "alice"] "API Key not found" 400
  ∧ Routes.unsubscribe (sample_services (Some "key-1") None)
      (sample_request (Some "alice") None (Some ["NSE:INFY"; "TCS"]))
    = error_outcome [GetApiKeyForTradingview "alice"; GetBrokerName "key-1"]
        "Broker not found" 400.
Proof.
  split.
  - destruct (resolution_failure_400 (sample_services None (Some "zerodha"))
                (sample_request (Some "alice") None (Some ["NSE:INFY"; "TCS"]))
                "alice" ["NSE:INFY"; "TCS"])
      as (Hkey & _ & _);
      [reflexivity | reflexivity | discriminate | reflexivity | discriminate |].
    exact (proj1 (Hkey eq_refl)).
  - destruct (resolution_failure_400 (sample_services (Some "key-1") None)
                (sample_request (Some "alice") None (Some ["NSE:INFY"; "TCS"]))
                "alice" ["NSE:INFY"; "TCS"])
      as (_ & Hbroker & _);
      [reflexivity | reflexivity | discriminate | reflexivity | discriminate |].
    refine (proj2 (Hbroker "key-1" eq_refl _ eq_refl)). discriminate.
Defined.

(** ** Search *)

(** C6.  For a query that is not empty once stripped, when
    [enhanced_search_symbols] raises an exception [e], GET
    /websocket/search answers 500 with the body {error: str(e)}, and the
    calls made are the search and then [logger.error] with the message
    'Error searching symbols: ' followed by str(e). *)
Theorem search_exception_500 (w : Services) (req : Request) (e : PyExc) :
  session_check w (session req) = None →
  PyStr.strip (default "" (args req !! "q")) ≠ "" →
  enhanced_search_symbols w (PyStr.strip (default "" (args req !! "q")))
    (args req !! "exchange") = inl e →
  Routes.search w req
  = ([EnhancedSearchSymbols (PyStr.strip (default "" (args req !! "q")))
        (args req !! "exchange");
      LoggerError ("Error searching symbols: " ++ exc_str e)],
     inr {| body := JsonBody (JObj [("error", JStr (exc_str e))]);
            status := 500 |}).
Proof.
  intros Hg Hq He. unfold Routes.search. rewrite route_on_valid_session by done.
  unfold Views.search. cbv zeta.
  destruct (String.eqb _ "") eqn:E; [by apply String.eqb_eq in E|].
  by rewrite He.
Qed.

Lemma search_exception_500_witness :
  Routes.search (sample_services (Some "key-1") (Some "zerodha"))
    (sample_request (Some "alice") (Some " FAIL ") None)
  = ([EnhancedSearchSymbols "FAIL" None;
      LoggerError "Error searching symbols: database is locked"],
     inr {| body := JsonBody (JObj [("error", JStr "database is locked")]);
            status := 500 |}).
Proof.
  apply (search_exception_500 (sample_services (Some "key-1") (Some "zerodha"))
           (sample_request (Some "alice") (Some " FAIL ") None)
           {| exc_class := "OperationalError"; exc_str := "database is locked" |});
    [reflexivity | vm_compute; discriminate | reflexivity].
Defined.

(** The view on a query parameter made of white space only. *)
Lemma search_view_blank (w : Services) (req : Request) :
  PyStr.all_space (default "" (args req !! "q")) = true →
  Views.search w req = ([], inr {| body := JsonBody (JArr []); status := 200 |}).
Proof.
  intros Hq. unfold Views.search. by rewrite strip_all_space.
Qed.

(** C7.  A GET /websocket/search whose parameter q is the empty string
    answers the empty JSON array with status 200, and
    [enhanced_search_symbols] is not called: no call is made at all. *)
Theorem search_empty_query (w : Services) (req : Request) :
  session_check w (session req) = None →
  args req !! "q" = Some "" →
  Routes.search w req
  = ([], inr {| body := JsonBody (JArr []); status := 200 |}).
Proof.
  intros Hg Hq. unfold Routes.search. rewrite route_on_valid_session by done.
  apply search_view_blank. by rewrite Hq.
Qed.

Lemma search_empty_query_witness :
  Routes.search (sample_services (Some "key-1") (Some "zerodha"))
    (sample_request (Some "alice") (Some "") None)
  = ([], inr {| body := JsonBody (JArr []); status := 200 |}).
Proof.
  apply (search_empty_query (sample_services (Some "key-1") (Some "zerodha"))
           (sample_request (Some "alice") (Some "") None)); reflexivity.
Defined.

(** C9.  A GET /websocket/search whose parameter q consists of white
    space only has the outcome of the empty query: the query is stripped
    before it is tested, the answer is the empty JSON array with status
    200, and [enhanced_search_symbols] is not called. *)
Theorem search_blank_query (w : Services) (req : Request) (q : string) :
  session_check w (session req) = None →
  args req !! "q" = Some q →
  PyStr.all_space q = true →
  PyStr.strip q = ""
  ∧ Routes.search w req
    = ([], inr {| body := JsonBody (JArr []); status := 200 |})
  ∧ Routes.search w req
    = Routes.search w {| session := session req;
                         args := <["q" := ""]> (args req);
                         json := json req |}.
Proof.
  intros Hg Hq Hsp. split; [by apply strip_all_space|].
  unfold Routes.search. rewrite !route_on_valid_session by done.
  rewrite !search_view_blank; [done| |].
  - simpl. by rewrite lookup_insert_eq.
  - by rewrite Hq.
Qed.

Lemma search_blank_query_witness :
  Routes.search (sample_services (Some "key-1") (Some "zerodha"))
    (sample_request (Some "alice") (Some "  	 ") None)
  = ([], inr {| body := JsonBody (JArr []); status := 200 |}).
Proof.
  apply (search_blank_query (sample_services (Some "key-1") (Some "zerodha"))
           (sample_request (Some "alice") (Some "  	 ") None) "  	 ");
    reflexivity.
Defined.

(** ** Subscriptions *)

(** C8.  For a logged-in user, GET /websocket/subscriptions answers the
    payload of [get_websocket_subscriptions] as its body: with the
    collaborator's status code when the collaborator reports a failure,
    and as the subscription data, with status 200, when it reports a
    success.  Without a session user the route answers 401 and makes no
    call. *)
Theorem subscriptions_route (w : Services) (req : Request) :
  session_check w (session req) = None →
  (∀ username : string,
     session req !! "user" = Some username → username ≠ "" →
     ∀ (success : bool) (data : Json) (code : Z),
       get_websocket_subscriptions w username = inr (success, data, code) →
       Routes.get_subscriptions w req
       = ([GetWebsocketSubscriptions username],
          inr {| body := JsonBody data;
                 status := if success then 200 else code |}))
  ∧ (truthy (session req !! "user") = false →
     Routes.get_subscriptions w req
     = ([], inr {| body := JsonBody (error_json "User not logged in");
                   status := 401 |})).
Proof.
  intros Hg. unfold Routes.get_subscriptions. rewrite route_on_valid_session by done.
  unfold Views.get_subscriptions. split.
  - intros username Hu Hne success data code Hc.
    rewrite Hu, if_truthy_Some, Hc, bind_call by done. by destruct success.
  - intros Hu. by rewrite if_truthy_falsy.
Qed.

Lemma subscriptions_route_witness :
  Routes.get_subscriptions (sample_services (Some "key-1") (Some "zerodha"))
    (sample_request (Some "alice") None None)
  = ([GetWebsocketSubscriptions "alice"],
     inr {| body := JsonBody sample_payload; status := 503 |})
  ∧ Routes.get_subscriptions sample_services_ok
      (sample_request (Some "alice") None None)
    = ([GetWebsocketSubscriptions "alice"],
       inr {| body := JsonBody (JArr [JStr "NSE:INFY"]); status := 200 |})
  ∧ Routes.get_subscriptions sample_services_ok (sample_request None None None)
    = ([], inr {| body := JsonBody (error_json "User not logged in");
                  status := 401 |}).
Proof.
  split; [|split].
  - refine (proj1 (subscriptions_route
                     (sample_services (Some "key-1") (Some "zerodha"))
                     (sample_request (Some "alice") None None) eq_refl)
              "alice" eq_refl _ false sample_payload 503%Z eq_refl).
    discriminate.
  - refine (proj1 (subscriptions_route sample_services_ok
                     (sample_request (Some "alice") None None) eq_refl)
              "alice" eq_refl _ true (JArr [JStr "NSE:INFY"]) 200%Z eq_refl).
    discriminate.
  - exact (proj2 (subscriptions_route sample_services_ok
                    (sample_request None None None) eq_refl) eq_refl).
Defined.

(** * Further properties of the code *)

(** ** The parser on references written by a client *)

Lemma find_app_sep (c : ascii) (a b : string) :
  PyStr.contains c a = false →
  PyStr.find c (a ++ String c b)%string = Some (String.length a).
Proof.
  induction a as [|x a IH]; simpl.
  - intros _. by rewrite Ascii.eqb_refl.
  - destruct (Ascii.eqb x c); [discriminate|]. intros H. by rewrite IH.
Qed.

Lemma take_app_length (a b : string) :
  PyStr.take (String.length a) (a ++ b)%string = a.
Proof.
  induction a as [|x a IH]; simpl; [by destruct b|]. by rewrite IH.
Qed.

Lemma drop_app_length (c : ascii) (a b : string) :
  PyStr.drop (S (String.length a)) (a ++ String c b)%string = b.
Proof. induction a as [|x a IH]; simpl; [done|]. exact IH. Qed.

Lemma parse_entry_render (p : ParsedSymbol) :
  PyStr.contains ":" (exchange p) = false →
  parse_entry (render_symbol p) = p.
Proof.
  intros H. destruct p as [ex sym]. unfold parse_entry, render_symbol.
  simpl exchange in *. simpl symbol.
  change (ex ++ ":" ++ sym)%string with (ex ++ String ":" sym)%string.
  rewrite find_app_sep by done.
  by rewrite take_app_length, drop_app_length.
Qed.

(** X1.  Parsing is the inverse of writing references: for entries whose
    exchange contains no ':' (the symbol may contain some, and either may
    be empty), the parser run on their references EXCHANGE:SYMBOL answers
    exactly these entries, in order. *)
Theorem parse_render_roundtrip (l : list ParsedSymbol) :
  Forall (λ p, PyStr.contains ":" (exchange p) = false) l →
  parse_symbols (map render_symbol l) [] = ([], inr l).
Proof.
  intros Hl. rewrite parse_symbols_map.
  assert (map parse_entry (map render_symbol l) = l) as ->; [|done].
  induction Hl as [|p l Hp _ IH]; simpl; [done|].
  by rewrite parse_entry_render, IH.
Qed.

Lemma parse_render_roundtrip_witness :
  parse_symbols
    (map render_symbol
       [{| exchange := "NFO"; symbol := "NIFTY:FUT" |};
        {| exchange := ""; symbol := "SBIN" |};
        {| exchange := "BSE"; symbol := "" |}]) []
  = ([], inr [{| exchange := "NFO"; symbol := "NIFTY:FUT" |};
              {| exchange := ""; symbol := "SBIN" |};
              {| exchange := "BSE"; symbol := "" |}]).
Proof.
  apply (parse_render_roundtrip
           [{| exchange := "NFO"; symbol := "NIFTY:FUT" |};
            {| exchange := ""; symbol := "SBIN" |};
            {| exchange := "BSE"; symbol := "" |}]).
  repeat constructor.
Defined.

Lemma parse_entry_qualify (s : string) : parse_entry (qualify s) = parse_entry s.
Proof.
  unfold qualify. destruct (PyStr.contains ":" s) eqn:Hc; [done|].
  pose proof (parse_entry_spec s) as Hs. rewrite Hc in Hs. by rewrite Hs.
Qed.

(** X2.  A bare symbol and the same symbol under the prefix NSE: are the
    same to the parser: making the default exchange explicit in every
    entry of a list does not change what the parser answers. *)
Theorem parse_qualify (l : list string) :
  parse_symbols (map qualify l) [] = parse_symbols l [].
Proof.
  rewrite !parse_symbols_map.
  assert (map parse_entry (map qualify l) = map parse_entry l) as ->; [|done].
  induction l as [|s l IH]; simpl; [done|].
  by rewrite parse_entry_qualify, IH.
Qed.

(** X3.  The parser works entry by entry: the answer on a concatenation
    of two lists is the concatenation of the answers on each, and entries
    already collected are kept in front, unchanged. *)
Theorem parse_symbols_app (l1 l2 : list string) (acc : list ParsedSymbol) :
  ∃ p1 p2 : list ParsedSymbol,
    parse_symbols l1 [] = ([], inr p1)
    ∧ parse_symbols l2 [] = ([], inr p2)
    ∧ parse_symbols (l1 ++ l2) [] = ([], inr (p1 ++ p2))
    ∧ parse_symbols l1 acc = ([], inr (acc ++ p1)).
Proof.
  exists (map parse_entry l1), (map parse_entry l2).
  rewrite !parse_symbols_map, !map_app. by repeat split.
Qed.

(** ** The query handed to the search *)

Lemma lstrip_head (s : string) (a : ascii) (r : string) :
  PyStr.lstrip s = String a r → PyStr.isspace a = false.
Proof.
  induction s as [|x s IH]; simpl; [discriminate|].
  destruct (PyStr.isspace x) eqn:Hx; [exact IH|]. by intros [= <- _].
Qed.

Lemma rstrip_head (t : string) (a : ascii) (r : string) :
  PyStr.rstrip t = String a r → ∃ r', t = String a r'.
Proof.
  destruct t as [|x t]; simpl; [discriminate|].
  destruct (PyStr.rstrip t); [destruct (PyStr.isspace x); [discriminate|]|];
    intros [= <- _]; eauto.
Qed.

Lemma rstrip_last (t : string) (r : string) (a : ascii) :
  PyStr.rstrip t = (r ++ String a "")%string → PyStr.isspace a = false.
Proof.
  revert r. induction t as [|x t IH]; intros r; simpl.
  - by destruct r.
  - destruct (PyStr.rstrip t) as [|y r0] eqn:Ht.
    + destruct (PyStr.isspace x) eqn:Hx; [by destruct r|].
      destruct r as [|z r]; simpl; [by intros [= <-]|].
      intros [= _ H]. by destruct r.
    + destruct r as [|z r]; simpl; [discriminate|].
      intros [= _ H]. by apply (IH r).
Qed.

Lemma rstrip_all_space (s : string) :
  PyStr.all_space s = true → PyStr.rstrip s = "".
Proof.
  induction s as [|x s IH]; simpl; [done|].
  intros [Hx Hs]%andb_prop. by rewrite IH, Hx.
Qed.

Lemma rstrip_app_space (s post : string) :
  PyStr.all_space post = true → PyStr.rstrip (s ++ post)%string = PyStr.rstrip s.
Proof.
  intros Hp. induction s as [|x s IH]; simpl.
  - by apply rstrip_all_space.
  - by rewrite IH.
Qed.

Lemma strip_app_space (pre s post : string) :
  PyStr.all_space pre = true → PyStr.all_space post = true →
  PyStr.strip (pre ++ s ++ post)%string = PyStr.strip s.
Proof.
  intros Hpre Hpost. unfold PyStr.strip.
  induction pre as [|x pre IH]; simpl.
  - induction s as [|y s IHs]; simpl.
    + by rewrite lstrip_all_space.
    + destruct (PyStr.isspace y); [exact IHs|].
      change (String y (s ++ post)%string) with (String y s ++ post)%string.
      by apply rstrip_app_space.
  - simpl in Hpre. apply andb_prop in Hpre as [-> Hpre]. by apply IH.
Qed.


(** X5.  When the search collaborator answers rows for a query that is
    not blank, the view answers 200 with one JSON object per row, in the
    order of the rows, each with the fields symbol, name, exchange, token
    and instrumenttype of its row; the collaborator was called once, with
    the stripped query and the [exchange] parameter as it was given. *)
Theorem search_rows (w : Services) (req : Request) (rows : list SymbolRecord) :
  PyStr.strip (default "" (args req !! "q")) ≠ "" →
  enhanced_search_symbols w (PyStr.strip (default "" (args req !! "q")))
    (args req !! "exchange") = inr rows →
  ∃ objects : list Json,
    Views.search w req
    = ([EnhancedSearchSymbols (PyStr.strip (default "" (args req !! "q")))
          (args req !! "exchange")],
       inr {| body := JsonBody (JArr objects); status := 200 |})
    ∧ List.length objects = List.length rows
    ∧ ∀ (i : nat) (r : SymbolRecord),
        rows !! i = Some r →
        objects !! i
        = Some (JObj [("symbol", JStr (rec_symbol r));
                      ("name", JStr (rec_name r));
                      ("exchange", JStr (rec_exchange r));
                      ("token", JStr (rec_token r));
                      ("instrumenttype", JStr (rec_instrumenttype r))]).
Proof.
  intros Hq Hs. exists (map record_json rows). split; [|split].
  - unfold Views.search. cbv zeta.
    destruct (String.eqb _ "") eqn:E; [by apply String.eqb_eq in E|].
    by rewrite Hs.
  - by rewrite length_map.
  - intros i r Hi. by rewrite list_lookup_fmap, Hi.
Qed.

Lemma search_rows_witness :
  Views.search sample_services_ok
    (sample_request None (Some " INFY") None)
  = ([EnhancedSearchSymbols "INFY" None],
     inr {| body := JsonBody (JArr [record_json sample_record]);
            status := 200 |}).
Proof.
  destruct (search_rows sample_services_ok
              (sample_request None (Some " INFY") None) [sample_record])
    as (objects & Hv & _ & _); [vm_compute; discriminate | reflexivity |].
  rewrite Hv. vm_compute in Hv. injection Hv as <-. reflexivity.
Defined.

(** X6.  The query that [enhanced_search_symbols] receives is never
    blank and has no white space around it: whenever the view calls the
    collaborator, the query is the stripped parameter [q], it is not empty,
    and neither its first nor its last character is white space; the
    exchange is the parameter [exchange] as given. *)
Theorem search_query_stripped (w : Services) (req : Request)
    (q : string) (ex : option string) :
  EnhancedSearchSymbols q ex ∈ trace (Views.search w req) →
  q = PyStr.strip (default "" (args req !! "q"))
  ∧ ex = args req !! "exchange"
  ∧ q ≠ ""
  ∧ (∀ a r, q = String a r → PyStr.isspace a = false)
  ∧ (∀ a r, q = (r ++ String a "")%string → PyStr.isspace a = false).
Proof.
  unfold Views.search. cbv zeta.
  destruct (String.eqb _ "") eqn:E.
  - simpl. by intros ?%elem_of_nil.
  - apply String.eqb_neq in E. intros Hin.
    assert (EnhancedSearchSymbols q ex
            = EnhancedSearchSymbols (PyStr.strip (default "" (args req !! "q")))
                (args req !! "exchange")) as [= -> ->].
    { destruct (enhanced_search_symbols w _ _); simpl in Hin;
        repeat (apply elem_of_cons in Hin as [Hin|Hin]; try done);
        by apply elem_of_nil in Hin. }
    repeat split; [done| |].
    + intros a r Hq. unfold PyStr.strip in Hq.
      destruct (rstrip_head _ _ _ Hq) as [r' Hr'].
      by apply lstrip_head in Hr'.
    + intros a r Hq. by apply rstrip_last in Hq.
Qed.

Lemma search_query_stripped_witness :
  "TATA MOTORS" = PyStr.strip "  TATA MOTORS " ∧ "TATA MOTORS" ≠ "".
Proof.
  destruct (search_query_stripped sample_services_ok
              (sample_request None (Some "  TATA MOTORS ") None)
              "TATA MOTORS" None) as (Hq & _ & Hne & _).
  - vm_compute. apply list_elem_of_here.
  - split; [exact Hq | exact Hne].
Defined.

(** X7.  White space around the query does not matter: a request whose
    parameter [q] has white space added before and after has the outcome
    of the request itself, calls included. *)
Theorem search_ignores_surrounding_space (w : Services) (req : Request)
    (q pre post : string) :
  args req !! "q" = Some q →
  PyStr.all_space pre = true → PyStr.all_space post = true →
  Views.search w {| session := session req;
                    args := <["q" := (pre ++ q ++ post)%string]> (args req);
                    json := json req |}
  = Views.search w req.
Proof.
  intros Hq Hpre Hpost. unfold Views.search. simpl args.
  rewrite lookup_insert_eq, lookup_insert_ne, Hq by done. simpl default.
  by rewrite strip_app_space.
Qed.

Lemma search_ignores_surrounding_space_witness :
  Views.search sample_services_ok
    {| session := ∅; args := <["q" := "  INFY "]> {[ "q" := "INFY" ]};
       json := ∅ |}
  = Views.search sample_services_ok (sample_request None (Some "INFY") None).
Proof.
  apply (search_ignores_surrounding_space sample_services_ok
           (sample_request None (Some "INFY") None) "INFY" "  " " ");
    reflexivity.
Defined.

(** ** The page, the connection and the rooms *)

(** The page view for a logged-in user. *)
Lemma index_view_logged_in (w : Services) (req : Request) (username : string) :
  session req !! "user" = Some username → username ≠ "" →
  Views.index w req
  = ([RegisterMarketDataCallback username (on_market_data username)],
     match register_market_data_callback w username (on_market_data username) with
     | inl e => inl e
     | inr _ => inr (render_template "websocket.html")
     end).
Proof.
  intros Hu Hne. unfold Views.index. rewrite Hu, if_truthy_Some by done.
  destruct (register_market_data_callback w username _) as [e|[]]; reflexivity.
Qed.

(** X8.  For a logged-in user the page view registers one callback for
    that user, which emits event market_data to the room user_<username>,
    and makes no other call; it then answers the page with status 200,
    unless the registration raised, in which case the exception leaves the
    view. *)
Theorem index_registers_callback (w : Services) (req : Request) (username : string) :
  session req !! "user" = Some username → username ≠ "" →
  Views.index w req
  = ([RegisterMarketDataCallback username
        {| cb_event := "market_data"; cb_room := "user_" ++ username |}],
     match register_market_data_callback w username
             {| cb_event := "market_data"; cb_room := "user_" ++ username |} with
     | inl e => inl e
     | inr _ => inr {| body := TemplateBody "websocket.html"; status := 200 |}
     end).
Proof.
  intros Hu Hne. by rewrite (index_view_logged_in w req username).
Qed.

Lemma index_registers_callback_witness :
  Views.index sample_services_ok (sample_request (Some "alice") None None)
  = ([RegisterMarketDataCallback "alice"
        {| cb_event := "market_data"; cb_room := "user_alice" |}],
     inr {| body := TemplateBody "websocket.html"; status := 200 |}).
Proof.
  apply (index_registers_callback sample_services_ok
           (sample_request (Some "alice") None None) "alice");
    [reflexivity | discriminate].
Defined.


Lemma append_inj_r (p a b : string) : (p ++ a)%string = (p ++ b)%string → a = b.
Proof. induction p as [|x p IH]; simpl; [done|]. intros [= H]. by apply IH. Qed.

(** X10.  Rooms are per user: the callback that the page view registers
    for one user never emits to the room that the connection of a
    different user joins. *)
Theorem rooms_are_per_user (w : Services) (req1 req2 : Request)
    (u1 u2 room : string) (cb : Callback) :
  session req1 !! "user" = Some u1 →
  session req2 !! "user" = Some u2 →
  u1 ≠ u2 →
  JoinRoom room ∈ trace (Views.handle_connect req1) →
  RegisterMarketDataCallback u2 cb ∈ trace (Views.index w req2) →
  cb_room cb ≠ room.
Proof.
  intros H1 H2 Hne Hjoin Hreg.
  unfold Views.handle_connect in Hjoin. unfold Views.index in Hreg.
  rewrite H1 in Hjoin. rewrite H2 in Hreg. unfold if_truthy in *.
  destruct (String.eqb u1 ""); [by apply elem_of_nil in Hjoin|].
  destruct (String.eqb u2 "").
  { simpl in Hreg. by apply elem_of_nil in Hreg. }
  simpl in Hjoin.
  apply elem_of_cons in Hjoin as [[= ->]|Hjoin]; cycle 1.
  { apply elem_of_cons in Hjoin as [?|Hjoin]; [done|].
    by apply elem_of_nil in Hjoin. }
  assert (cb = on_market_data u2) as ->.
  { destruct (register_market_data_callback w u2 _) as [e|[]]; simpl in Hreg;
      apply elem_of_cons in Hreg as [[= ->]|Hreg]; try done;
      by apply elem_of_nil in Hreg. }
  simpl. intros Heq. apply append_inj_r in Heq. by apply Hne.
Qed.

Lemma rooms_are_per_user_witness : "user_bob" ≠ "user_alice".
Proof.
  apply (rooms_are_per_user sample_services_ok
           (sample_request (Some "alice") None None)
           (sample_request (Some "bob") None None)
           "alice" "bob" "user_alice" (on_market_data "bob"));
    [reflexivity | reflexivity | discriminate
    | vm_compute; apply list_elem_of_here
    | vm_compute; apply list_elem_of_here].
Defined.

(** ** The status view *)

(** X11.  For a logged-in user the status view calls
    [get_websocket_status] once and answers its payload with its status
    code, whether it reports a success or a failure (where the
    subscriptions view answers 200 on a success); an exception of the
    collaborator leaves the view. *)
Theorem status_mirrors_collaborator (w : Services) (req : Request)
    (username : string) :
  session req !! "user" = Some username → username ≠ "" →
  Views.status w req
  = ([GetWebsocketStatus username],
     match get_websocket_status w username with
     | inl e => inl e
     | inr (_, data, code) => inr {| body := JsonBody data; status := code |}
     end)
  ∧ ∀ (data : Json) (code : Z),
      get_websocket_status w username = inr (true, data, code) →
      get_websocket_subscriptions w username = inr (true, data, code) →
      result (Views.status w req)
        = inr {| body := JsonBody data; status := code |}
      ∧ result (Views.get_subscriptions w req)
        = inr {| body := JsonBody data; status := 200 |}.
Proof.
  intros Hu Hne.
  assert (Views.status w req
          = ([GetWebsocketStatus username],
             match get_websocket_status w username with
             | inl e => inl e
             | inr (_, data, code) =>
                 inr {| body := JsonBody data; status := code |}
             end)) as Hst.
  { unfold Views.status. rewrite Hu, if_truthy_Some by done.
    by destruct (get_websocket_status w username) as [e|[[ok data] code]]. }
  split; [exact Hst|]. intros data code Hs Hsub. split.
  - by rewrite Hst, Hs.
  - unfold Views.get_subscriptions.
    by rewrite Hu, if_truthy_Some, Hsub by done.
Qed.

Lemma status_mirrors_collaborator_witness :
  Views.status (sample_services None None)
    (sample_request (Some "alice") None None)
  = ([GetWebsocketStatus "alice"],
     inr {| body := JsonBody (JObj [("connected", JBool true)]);
            status := 200 |}).
Proof.
  refine (proj1 (status_mirrors_collaborator (sample_services None None)
                   (sample_request (Some "alice") None None) "alice"
                   eq_refl _)).
  discriminate.
Defined.

(** ** Subscribe and unsubscribe: every path *)

(** The helper, by what the two lookups answer or raise. *)
Lemma helper_cases (w : Services) (username : string) (l : list string) :
  _get_broker_and_parse_symbols w username l
  = match get_api_key_for_tradingview w username with
    | inl e => ([GetApiKeyForTradingview username], inl e)
    | inr api_key =>
        if_truthy api_key
          (λ api_key,
             match get_broker_name w api_key with
             | inl e =>
                 ([GetApiKeyForTradingview username; GetBrokerName api_key],
                  inl e)
             | inr broker =>
                 ([GetApiKeyForTradingview username; GetBrokerName api_key],
                  inr (if_truthy broker
                         (λ broker, inr (broker, map parse_entry l))
                         (inl "Broker not found")))
             end)
          ([GetApiKeyForTradingview username], inr (inl "API Key not found"))
    end.
Proof.
  unfold _get_broker_and_parse_symbols.
  destruct (get_api_key_for_tradingview w username) as [e|k]; [done|].
  rewrite bind_call.
  destruct k as [k|]; [|done].
  destruct (decide (k = "")) as [->|Hk]; [done|].
  rewrite !if_truthy_Some by done.
  destruct (get_broker_name w k) as [e|b]; [done|].
  rewrite bind_call.
  destruct b as [b|]; [|done].
  destruct (decide (b = "")) as [->|Hb]; [done|].
  rewrite !if_truthy_Some by done.
  by rewrite parse_symbols_map, bind_ret.
Qed.

(** The two views once a user and a non-empty list were read. *)
Lemma subscribe_view_body (w : Services) (req : Request) (username : string)
    (symbols : list string) :
  session req !! "user" = Some username → username ≠ "" →
  json req !! "symbols" = Some symbols → symbols ≠ [] →
  Views.subscribe w req
  = (_get_broker_and_parse_symbols w username symbols ≫= λ r,
       match r with
       | inl error => mret (with_status (jsonify (error_json error)) 400)
       | inr (broker, parsed_symbols) =>
           call (SubscribeToSymbols username broker parsed_symbols)
                (subscribe_to_symbols w username broker parsed_symbols)
           ≫= λ '(success, response, status_code),
                mret (with_status (jsonify response) status_code)
       end).
Proof.
  intros Hu Hne Hs Hnil. unfold Views.subscribe.
  rewrite Hu, if_truthy_Some, Hs by done. by destruct symbols.
Qed.

Lemma unsubscribe_view_body (w : Services) (req : Request) (username : string)
    (symbols : list string) :
  session req !! "user" = Some username → username ≠ "" →
  json req !! "symbols" = Some symbols → symbols ≠ [] →
  Views.unsubscribe w req
  = (_get_broker_and_parse_symbols w username symbols ≫= λ r,
       match r with
       | inl error => mret (with_status (jsonify (error_json error)) 400)
       | inr (broker, parsed_symbols) =>
           call (UnsubscribeFromSymbols username broker parsed_symbols)
                (unsubscribe_from_symbols w username broker parsed_symbols)
           ≫= λ '(success, response, status_code),
                mret (with_status (jsonify response) status_code)
       end).
Proof.
  intros Hu Hne Hs Hnil. unfold Views.unsubscribe.
  rewrite Hu, if_truthy_Some, Hs by done. by destruct symbols.
Qed.

(** X12.  Subscribe and unsubscribe catch nothing: for a logged-in user
    and a non-empty list, when the API-key lookup, the broker lookup or the
    call to the subscription service raises, the exception leaves the view
    and no response is made; the calls made are those up to the one that
    raised, so that a failed lookup is never followed by a call to the
    subscription service. *)
Theorem collaborator_exceptions_propagate (w : Services) (req : Request)
    (username : string) (symbols : list string) (e : PyExc) :
  session req !! "user" = Some username → username ≠ "" →
  json req !! "symbols" = Some symbols → symbols ≠ [] →
  (get_api_key_for_tradingview w username = inl e →
     Views.subscribe w req = ([GetApiKeyForTradingview username], inl e)
     ∧ Views.unsubscribe w req = ([GetApiKeyForTradingview username], inl e))
  ∧ (∀ api_key : string,
       get_api_key_for_tradingview w username = inr (Some api_key) →
       api_key ≠ "" →
       get_broker_name w api_key = inl e →
       Views.subscribe w req
         = ([GetApiKeyForTradingview username; GetBrokerName api_key], inl e)
       ∧ Views.unsubscribe w req
         = ([GetApiKeyForTradingview username; GetBrokerName api_key], inl e))
  ∧ ∃ parsed : list ParsedSymbol,
      parse_symbols symbols [] = ([], inr parsed)
      ∧ ∀ api_key broker : string,
          get_api_key_for_tradingview w username = inr (Some api_key) →
          api_key ≠ "" →
          get_broker_name w api_key = inr (Some broker) →
          broker ≠ "" →
          (subscribe_to_symbols w username broker parsed = inl e →
           Views.subscribe w req
           = ([GetApiKeyForTradingview username; GetBrokerName api_key;
               SubscribeToSymbols username broker parsed], inl e))
          ∧ (unsubscribe_from_symbols w username broker parsed = inl e →
             Views.unsubscribe w req
             = ([GetApiKeyForTradingview username; GetBrokerName api_key;
                 UnsubscribeFromSymbols username broker parsed], inl e)).
Proof.
  intros Hu Hne Hs Hnil.
  rewrite (subscribe_view_body w req username symbols) by done.
  rewrite (unsubscribe_view_body w req username symbols) by done.
  rewrite helper_cases. split; [|split].
  - intros Hk. by rewrite Hk.
  - intros k Hk Hnk Hb. by rewrite Hk, if_truthy_Some, Hb.
  - exists (map parse_entry symbols). split; [by rewrite parse_symbols_map|].
    intros k b Hk Hnk Hb Hnb.
    rewrite Hk, if_truthy_Some, Hb, if_truthy_Some by done.
    split; intros Hc; by rewrite bind_inr, Hc.
Qed.

Lemma collaborator_exceptions_propagate_witness :
  Views.subscribe sample_services_down
    (sample_request (Some "alice") None (Some ["NSE:INFY"]))
  = ([GetApiKeyForTradingview "alice"; GetBrokerName "key-1";
      SubscribeToSymbols "alice" "zerodha"
        [{| exchange := "NSE"; symbol := "INFY" |}]],
     inl {| exc_class := "ConnectionError"; exc_str := "proxy unreachable" |}).
Proof.
  destruct (collaborator_exceptions_propagate sample_services_down
              (sample_request (Some "alice") None (Some ["NSE:INFY"]))
              "alice" ["NSE:INFY"]
              {| exc_class := "ConnectionError";
                 exc_str := "proxy unreachable" |})
    as (_ & _ & parsed & Hp & Hcall);
    [reflexivity | discriminate | reflexivity | discriminate |].
  vm_compute in Hp. injection Hp as <-.
  refine (proj1 (Hcall "key-1" "zerodha" eq_refl _ eq_refl _) eq_refl);
    discriminate.
Defined.

(** Membership of an event in a trace that is written out. *)
Ltac event_cases H :=
  simpl in H;
  repeat (apply elem_of_cons in H as [H|H]; [try discriminate H|]);
  try (by apply elem_of_nil in H).

(** The script shared by the two views: [body] is the lemma that rewrites
    the view once a user and a non-empty list were read; the goal is left
    with the one path on which the subscription service is called. *)
Ltac until_service_call Hin unfold_view body w req :=
  let u := fresh "u" in let Hu := fresh "Hu" in
  let symbols := fresh "symbols" in let Hs := fresh "Hs" in
  let k := fresh "k" in let Hk := fresh "Hk" in
  let b := fresh "b" in let Hb := fresh "Hb" in
  let e := fresh "e" in
  destruct (session req !! "user") as [u|] eqn:Hu;
    [|unfold_view Hin; rewrite Hu in Hin; by event_cases Hin];
  destruct (decide (u = "")) as [->|?];
    [unfold_view Hin; rewrite Hu in Hin; by event_cases Hin|];
  destruct (json req !! "symbols") as [symbols|] eqn:Hs;
    [|unfold_view Hin; rewrite Hu, if_truthy_Some, Hs in Hin by done;
      by event_cases Hin];
  destruct (decide (symbols = [])) as [->|?];
    [unfold_view Hin; rewrite Hu, if_truthy_Some, Hs in Hin by done;
     by event_cases Hin|];
  rewrite (body w req u symbols), helper_cases in Hin by done;
  destruct (get_api_key_for_tradingview w u) as [e|[k|]] eqn:Hk;
    [by event_cases Hin| |by event_cases Hin];
  destruct (decide (k = "")) as [->|?]; [by event_cases Hin|];
  rewrite if_truthy_Some in Hin by done;
  destruct (get_broker_name w k) as [e|[b|]] eqn:Hb;
    [by event_cases Hin| |by event_cases Hin];
  destruct (decide (b = "")) as [->|?]; [by event_cases Hin|];
  rewrite if_truthy_Some, bind_inr in Hin by done.

(** X13.  A call to the subscription service is always backed by the
    request: whenever [subscribe_to_symbols] (in the unsubscribe view,
    [unsubscribe_from_symbols]) is called with a user, a broker and a list,
    the user is the session user, the broker is what [get_broker_name]
    answered for the key that [get_api_key_for_tradingview] answered for
    that user, and the list is what the parser answers on the non-empty
    symbols list of the body. *)
Theorem subscription_call_provenance (w : Services) (req : Request)
    (username broker : string) (parsed : list ParsedSymbol) :
  SubscribeToSymbols username broker parsed ∈ trace (Views.subscribe w req)
  ∨ UnsubscribeFromSymbols username broker parsed
      ∈ trace (Views.unsubscribe w req) →
  session req !! "user" = Some username ∧ username ≠ ""
  ∧ (∃ symbols : list string,
       json req !! "symbols" = Some symbols ∧ symbols ≠ []
       ∧ parse_symbols symbols [] = ([], inr parsed))
  ∧ ∃ api_key : string,
      get_api_key_for_tradingview w username = inr (Some api_key)
      ∧ api_key ≠ ""
      ∧ get_broker_name w api_key = inr (Some broker) ∧ broker ≠ "".
Proof.
  intros [Hin|Hin].
  - until_service_call Hin ltac:(fun H => unfold Views.subscribe in H)
      subscribe_view_body w req.
    destruct (subscribe_to_symbols w u b _) as [e'|[[ok pl] code]];
      event_cases Hin; injection Hin as -> -> ->;
      (split; [done|]; split; [done|]; split;
       [exists symbols; by rewrite parse_symbols_map | by exists k]).
  - until_service_call Hin ltac:(fun H => unfold Views.unsubscribe in H)
      unsubscribe_view_body w req.
    destruct (unsubscribe_from_symbols w u b _) as [e'|[[ok pl] code]];
      event_cases Hin; injection Hin as -> -> ->;
      (split; [done|]; split; [done|]; split;
       [exists symbols; by rewrite parse_symbols_map | by exists k]).
Qed.

Lemma subscription_call_provenance_witness :
  ∃ api_key : string,
    get_api_key_for_tradingview sample_services_ok "alice" = inr (Some api_key)
    ∧ api_key ≠ ""
    ∧ get_broker_name sample_services_ok api_key = inr (Some "zerodha")
    ∧ "zerodha" ≠ "".
Proof.
  apply (subscription_call_provenance sample_services_ok
           (sample_request (Some "alice") None (Some ["NSE:INFY"; "TCS"]))
           "alice" "zerodha"
           [{| exchange := "NSE"; symbol := "INFY" |};
            {| exchange := "NSE"; symbol := "TCS" |}]).
  left. vm_compute. do 2 apply list_elem_of_further. apply list_elem_of_here.
Defined.

(** X14.  Unsubscribe is subscribe with the other service function: when
    the two functions of the subscription service answer alike, the two
    views give the same outcome on every request, and make the same calls
    but for the name of the last one.  They check the session, the list
    and the lookups in the same way. *)
Theorem unsubscribe_same_contract (w : Services) (req : Request) :
  (∀ u b p, unsubscribe_from_symbols w u b p = subscribe_to_symbols w u b p) →
  Views.unsubscribe w req
  = (map opposite (trace (Views.subscribe w req)),
     result (Views.subscribe w req)).
Proof.
  intros Hsame.
  destruct (session req !! "user") as [u|] eqn:Hu; cycle 1.
  { unfold Views.unsubscribe, Views.subscribe. by rewrite Hu. }
  destruct (decide (u = "")) as [->|Hne].
  { unfold Views.unsubscribe, Views.subscribe. by rewrite Hu. }
  destruct (json req !! "symbols") as [symbols|] eqn:Hs; cycle 1.
  { unfold Views.unsubscribe, Views.subscribe.
    by rewrite Hu, !if_truthy_Some, Hs. }
  destruct (decide (symbols = [])) as [->|Hnil].
  { unfold Views.unsubscribe, Views.subscribe.
    by rewrite Hu, !if_truthy_Some, Hs. }
  rewrite (subscribe_view_body w req u symbols) by done.
  rewrite (unsubscribe_view_body w req u symbols), helper_cases by done.
  destruct (get_api_key_for_tradingview w u) as [e|[k|]]; [done| |done].
  destruct (decide (k = "")) as [->|Hk]; [done|].
  rewrite if_truthy_Some by done.
  destruct (get_broker_name w k) as [e|[b|]]; [done| |done].
  destruct (decide (b = "")) as [->|Hb]; [done|].
  rewrite if_truthy_Some, !bind_inr, Hsame by done.
  by destruct (subscribe_to_symbols w u b _) as [e|[[ok pl] code]].
Qed.

Lemma unsubscribe_same_contract_witness :
  Views.unsubscribe sample_services_ok
    (sample_request (Some "alice") None (Some ["NSE:INFY"]))
  = (map opposite
       (trace (Views.subscribe sample_services_ok
                 (sample_request (Some "alice") None (Some ["NSE:INFY"])))),
     result (Views.subscribe sample_services_ok
               (sample_request (Some "alice") None (Some ["NSE:INFY"])))).
Proof.
  apply (unsubscribe_same_contract sample_services_ok
           (sample_request (Some "alice") None (Some ["NSE:INFY"]))).
  reflexivity.
Defined.


(** ** Writing back what the parser answered *)

Lemma render_parse_entry (s : string) : render_symbol (parse_entry s) = qualify s.
Proof.
  pose proof (parse_entry_spec s) as Hs. unfold qualify, render_symbol.
  destruct (PyStr.contains ":" s); [by destruct Hs as [<- _]|by rewrite Hs].
Qed.

(** X16.  Nothing of a reference is lost: writing the entries that the
    parser answered back as EXCHANGE:SYMBOL gives the input list again,
    but for the bare symbols, which come back under the prefix NSE:. *)
Theorem render_parse_roundtrip (l : list string) :
  ∃ parsed : list ParsedSymbol,
    parse_symbols l [] = ([], inr parsed)
    ∧ map render_symbol parsed = map qualify l
    ∧ ∀ (i : nat) (s : string),
        l !! i = Some s → PyStr.contains ":" s = true →
        render_symbol <$> parsed !! i = Some s.
Proof.
  exists (map parse_entry l). split; [by rewrite parse_symbols_map|]. split.
  - induction l as [|s l IH]; simpl; [done|].
    by rewrite render_parse_entry, IH.
  - intros i s Hi Hc. rewrite list_lookup_fmap, Hi. simpl.
    rewrite render_parse_entry. unfold qualify. by rewrite Hc.
Qed.
